(** * Stock dashboard: the cascading quote-resolution pipeline of [src/App.tsx]

    The effect body of [App] resolves quotes for the fixed symbol list by
    trying Finnhub, then Financial Modeling Prep, then TwelveData, and
    finally a hard-coded sample table.  This development embeds that code:

    - JavaScript values as they come out of [JSON.parse], with the runtime
      conversions the code applies to them ([Number], property access,
      optional chaining, [??], truthiness), exceptions included;
    - IEEE-754 binary64 numbers as Rocq's primitive floats;
    - the [async] functions as computations in a state-and-exception monad
      over the React state of the component plus a log of the HTTP requests
      that were issued;
    - the network as an oracle from requests to responses.  *)

From Stdlib Require Import Floats.PrimFloat.
From stdpp Require Import base option list strings gmap.

Set Default Proof Using "Type".
#[local] Set Warnings "-inexact-float,-register-all".
#[local] Open Scope string_scope.

(** ** JavaScript values *)

Module Js.

(** What [axios] hands over as [data]: a parsed JSON document (or, when the
    body is not JSON, the raw string), plus [undefined], which property
    reads produce.  An object is a finite map from keys to values, since
    [JSON.parse] keeps one value per key. *)
Inductive JsVal : Type :=
| JUndefined
| JNull
| JBool (b : bool)
| JNum (x : float)
| JStr (s : string)
| JArr (l : list JsVal)
| JObj (m : gmap string JsVal).

(** Conversions between strings and numbers are the engine's, not the
    repository's: decimal parsing with correct rounding and shortest
    round-trip printing.  They are taken as an interface. *)
Class JsRuntime := {
  StringToNumber : string → float;
  NumberToString : float → string;
}.

(** An exception value.  Every handler in the source is a bare [catch {}],
    so which value is thrown is never observed. *)
Inductive Exn : Type :=
| Error (msg : string)
| TypeError
| AxiosError.

Inductive Outcome (A : Type) : Type :=
| Return (a : A)
| Throw (e : Exn).
Arguments Return {A} a.
Arguments Throw {A} e.

Definition is_nullish (v : JsVal) : bool :=
  match v with
  | JUndefined | JNull => true
  | _ => false
  end.

(** [v.k] for a key [k] that no built-in prototype defines (the source reads
    [c], [pc], [price], [symbol] and [changesPercentage]): a [TypeError] on
    [null] and [undefined], the own property of an object, and [undefined]
    on every other value. *)
Definition getProp (v : JsVal) (k : string) : Outcome JsVal :=
  match v with
  | JUndefined | JNull => Throw TypeError
  | JObj m => Return (default JUndefined (m !! k))
  | _ => Return JUndefined
  end.

(** [v?.k] *)
Definition optChain (v : JsVal) (k : string) : JsVal :=
  match getProp v k with
  | Return x => x
  | Throw _ => JUndefined
  end.

Section Conversions.
Context `{JsRuntime}.

(** [ToString].  An array is its elements joined by commas, [null] and
    [undefined] elements printing as the empty string.  An object goes
    through [ToPrimitive]: a parsed object holds no function, so a key
    [toString] of its own hides [Object.prototype.toString] behind a value
    that cannot be called, [valueOf] (its own or the inherited one) gives no
    primitive either, and the conversion throws a [TypeError]; without such a
    key the inherited method answers ["[object Object]"]. *)
Fixpoint ToString (v : JsVal) : Outcome string :=
  match v with
  | JUndefined => Return "undefined"
  | JNull => Return "null"
  | JBool true => Return "true"
  | JBool false => Return "false"
  | JNum x => Return (NumberToString x)
  | JStr s => Return s
  | JArr l =>
      match
        (fix join (l : list JsVal) : Outcome (list string) :=
           match l with
           | [] => Return []
           | e :: l' =>
               match (if is_nullish e then Return "" else ToString e) with
               | Return s =>
                   match join l' with
                   | Return ss => Return (s :: ss)
                   | Throw x => Throw x
                   end
               | Throw x => Throw x
               end
           end) l
      with
      | Return ss => Return (String.concat "," ss)
      | Throw x => Throw x
      end
  | JObj m =>
      match m !! "toString" with
      | Some _ => Throw TypeError
      | None => Return "[object Object]"
      end
  end.

(** [Number(v)].  An array is converted through [ToString]; an object
    through [ToPrimitive] as above, where the text ["[object Object]"] is not
    a numeric literal and an own key [toString] makes the conversion
    throw. *)
Definition Number (v : JsVal) : Outcome float :=
  match v with
  | JUndefined => Return nan
  | JNull => Return 0%float
  | JBool true => Return 1%float
  | JBool false => Return 0%float
  | JNum x => Return x
  | JStr s => Return (StringToNumber s)
  | JArr _ =>
      match ToString v with
      | Return s => Return (StringToNumber s)
      | Throw x => Throw x
      end
  | JObj m =>
      match m !! "toString" with
      | Some _ => Throw TypeError
      | None => Return nan
      end
  end.
End Conversions.

(** Truthiness of a number: [+0], [-0] and [NaN] are falsy. *)
Definition truthy (x : float) : bool := negb (is_zero x || is_nan x).

(** [Number.isFinite] applied to a number. *)
Definition Number_isFinite (x : float) : bool := is_finite x.

(** [o ?? d] for the result of a lookup in an object literal of numbers. *)
Definition nullish_or (o : option float) (d : float) : float := default d o.

(** Code units that [String.prototype.trim] strips, among those below 256:
    TAB, LF, VT, FF, CR, SPACE and NO-BREAK SPACE.  Strings are modelled as
    sequences of such code units. *)
Definition is_space (c : Ascii.ascii) : bool :=
  bool_decide (Ascii.nat_of_ascii c ∈ [9; 10; 11; 12; 13; 32; 160]).

Fixpoint trim_start (s : string) : string :=
  match s with
  | String c s' => if is_space c then trim_start s' else s
  | EmptyString => EmptyString
  end.

Fixpoint trim_end (s : string) : string :=
  match s with
  | String c s' =>
      match trim_end s' with
      | EmptyString => if is_space c then EmptyString else String c EmptyString
      | t => String c t
      end
  | EmptyString => EmptyString
  end.

Definition trim (s : string) : string := trim_end (trim_start s).

End Js.
Export Js.

(** ** Data of the component *)

(** [interface Stock].  The annotation says [symbol: string], but the FMP
    adapter copies [d.symbol] out of the payload unconverted, so at run time
    the field holds whatever value the payload had. *)
Record Stock : Type := mkStock {
  symbol : JsVal;
  price : float;
  change : float;
}.

Definition SYMBOLS : list string := ["AAPL"; "MSFT"; "GOOGL"; "AMZN"].

Inductive DataSource : Type := Finnhub | FMP | TwelveData | Demo.

(** An HTTP GET as [axios.get(url, { params })] issues it. *)
Record Request : Type := mkRequest {
  url : string;
  params : list (string * string);
}.

(** [axios.get] rejects on a network error or a non-2xx status; otherwise it
    resolves to a response whose [data] is the parsed body.  Every request
    is taken to settle, one way or the other. *)
Inductive HttpResult : Type :=
| Rejected
| Response (data : JsVal).

(** The [useState] cells of [App], and the requests sent so far, in order. *)
Record AppState : Type := mkAppState {
  stocks : list Stock;
  loading : bool;
  error : string;
  note : string;
  query : string;
  dataSource : DataSource;
  requests : list Request;
}.

(** ** The monad of the [async] functions *)

Definition M (A : Type) : Type := AppState → Outcome A * AppState.

#[global] Instance M_ret : MRet M := λ A a s, (Return a, s).
#[global] Instance M_bind : MBind M := λ A B f m s,
  match m s with
  | (Return a, s') => f a s'
  | (Throw e, s') => (Throw e, s')
  end.

Definition throw {A} (e : Exn) : M A := λ s, (Throw e, s).

(** [try { body } catch { handler }] *)
Definition try_catch {A} (body handler : M A) : M A := λ s,
  match body s with
  | (Return a, s') => (Return a, s')
  | (Throw _, s') => handler s'
  end.

(** [try { body } finally { fin }] *)
Definition try_finally {A} (body : M A) (fin : M unit) : M A := λ s,
  match body s with
  | (o, s') =>
      match fin s' with
      | (Return _, s'') => (o, s'')
      | (Throw e, s'') => (Throw e, s'')
      end
  end.

(** Lifting of a pure step that may throw. *)
Definition lift {A} (o : Outcome A) : M A := λ s, (o, s).

(** [Promise.all]: all promises of the list are started, in order, and run
    to their end; the result is the list of their values, or a rejection
    when one of them rejects.  The rejection passed on is taken to be that of
    the first promise of the list that rejects (at run time, of the first to
    reject); no handler of the source looks at it. *)
Fixpoint settle {A} (ps : list (M A)) (s : AppState)
  : list (Outcome A) * AppState :=
  match ps with
  | [] => ([], s)
  | p :: ps' =>
      let '(o, s1) := p s in
      let '(os, s2) := settle ps' s1 in
      (o :: os, s2)
  end.

Fixpoint fulfilled {A} (os : list (Outcome A)) : Outcome (list A) :=
  match os with
  | [] => Return []
  | Throw e :: _ => Throw e
  | Return a :: os' =>
      match fulfilled os' with
      | Return l => Return (a :: l)
      | Throw e => Throw e
      end
  end.

Definition Promise_all {A} (ps : list (M A)) : M (list A) := λ s,
  let '(os, s') := settle ps s in (fulfilled os, s').

(** Updates of the single cells; the setters of [useState] perform them.  A
    setter records the new value and returns; the component renders
    afterwards, as a step of its own. *)
Definition with_stocks (v : list Stock) (s : AppState) : AppState :=
  mkAppState v (loading s) (error s) (note s) (query s) (dataSource s)
    (requests s).
Definition with_loading (v : bool) (s : AppState) : AppState :=
  mkAppState (stocks s) v (error s) (note s) (query s) (dataSource s)
    (requests s).
Definition with_error (v : string) (s : AppState) : AppState :=
  mkAppState (stocks s) (loading s) v (note s) (query s) (dataSource s)
    (requests s).
Definition with_note (v : string) (s : AppState) : AppState :=
  mkAppState (stocks s) (loading s) (error s) v (query s) (dataSource s)
    (requests s).
Definition with_dataSource (v : DataSource) (s : AppState) : AppState :=
  mkAppState (stocks s) (loading s) (error s) (note s) (query s) v
    (requests s).
(** The requests [rs] leave the browser. *)
Definition sent (rs : list Request) (s : AppState) : AppState :=
  mkAppState (stocks s) (loading s) (error s) (note s) (query s)
    (dataSource s) (requests s ++ rs).

Definition setStocks (v : list Stock) : M unit :=
  λ s, (Return (), with_stocks v s).
Definition setLoading (v : bool) : M unit :=
  λ s, (Return (), with_loading v s).
Definition setError (v : string) : M unit :=
  λ s, (Return (), with_error v s).
Definition setNote (v : string) : M unit :=
  λ s, (Return (), with_note v s).
Definition setDataSource (v : DataSource) : M unit :=
  λ s, (Return (), with_dataSource v s).

#[global] Instance Outcome_ret : MRet Outcome := λ A a, Return a.
#[global] Instance Outcome_bind : MBind Outcome := λ A B f o,
  match o with
  | Return a => f a
  | Throw e => Throw e
  end.

(** [v.map(f)]: [Array.prototype.map] when [v] is an array, applying [f] to
    the elements from left to right; on any other value [v.map] is not a
    function ([null] and [undefined] have no properties at all). *)
Definition Array_map {A} (f : JsVal → Outcome A) (v : JsVal)
  : Outcome (list A) :=
  match v with
  | JArr l => mapM f l
  | _ => Throw TypeError
  end.

(** ** The adapters and the cascade *)

(** Sample prices, the object literal [FALLBACK] of [fetchWithTwelveData];
    [FALLBACK !! sym] is [FALLBACK[sym]] for a key that [Object.prototype]
    does not define. *)
Definition FALLBACK : gmap string float :=
  <["AAPL" := 228.48%float]> (<["MSFT" := 452.12%float]>
  (<["GOOGL" := 165.39%float]> (<["AMZN" := 182.77%float]> ∅))).

Definition DEMO : list Stock := [
  mkStock (JStr "AAPL") 228.48 0.87;
  mkStock (JStr "MSFT") 452.12 (-0.32);
  mkStock (JStr "GOOGL") 165.39 0.41;
  mkStock (JStr "AMZN") 182.77 1.12
].

Definition finnhubRequest (key sym : string) : Request :=
  mkRequest "https://finnhub.io/api/v1/quote" [("symbol", sym); ("token", key)].

Definition fmpRequest : Request :=
  mkRequest
    ("https://financialmodelingprep.com/api/v3/quote/"
       +:+ String.concat "," SYMBOLS +:+ "?apikey=demo") [].

Definition twelveDataRequest (sym : string) : Request :=
  mkRequest "https://api.twelvedata.com/price"
    [("symbol", sym); ("apikey", "demo")].

Section Pipeline.
Context `{JsRuntime}.
(** The providers, as seen from the browser. *)
Variable net : Request → HttpResult.
(** [process.env.REACT_APP_FINNHUB_KEY], absent when the variable is unset. *)
Variable REACT_APP_FINNHUB_KEY : option string.

(** [(process.env.REACT_APP_FINNHUB_KEY || "").trim()] *)
Definition API_KEY : string := trim (default "" REACT_APP_FINNHUB_KEY).

Definition axios_get (r : Request) : M JsVal := λ s,
  match net r with
  | Rejected => (Throw AxiosError, sent [r] s)
  | Response data => (Return data, sent [r] s)
  end.

(** The body of the callback of [fetchWithFinnhub] after its [await]. *)
Definition finnhubQuote (sym : string) (data : JsVal) : Outcome Stock :=
  c ← getProp data "c";
  price ← Number c;
  pc ← getProp data "pc";
  prev ← Number pc;
  let change :=
    if truthy prev then ((price - prev) / prev * 100)%float else 0%float in
  mret (mkStock (JStr sym) price change).

Definition fetchWithFinnhub : M (list Stock) :=
  if String.eqb API_KEY "" then throw (Error "no-key") else
  results ← Promise_all
    (map (λ sym, data ← axios_get (finnhubRequest API_KEY sym);
                 lift (finnhubQuote sym data)) SYMBOLS);
  setDataSource Finnhub;;
  mret results.

Definition fmpQuote (d : JsVal) : Outcome Stock :=
  sy ← getProp d "symbol";
  p ← getProp d "price";
  price ← Number p;
  ch ← getProp d "changesPercentage";
  change ← Number ch;
  mret (mkStock sy price change).

Definition fetchWithFMP : M (list Stock) :=
  data ← axios_get fmpRequest;
  mapped ← lift (Array_map fmpQuote data);
  setDataSource FMP;;
  mret mapped.

(** The quote the callback of [fetchWithTwelveData] builds from a payload,
    inside its [try], and the one its [catch] builds. *)
Definition twelveDataQuote (sym : string) (data : JsVal) : Outcome Stock :=
  raw ← Number (optChain data "price");
  let price :=
    if Number_isFinite raw then raw else nullish_or (FALLBACK !! sym) 0 in
  mret (mkStock (JStr sym) price 0).

Definition twelveDataSample (sym : string) : Stock :=
  mkStock (JStr sym) (nullish_or (FALLBACK !! sym) 0) 0.

Definition fetchWithTwelveData : M (list Stock) :=
  out ← Promise_all
    (map (λ sym,
       try_catch
         (data ← axios_get (twelveDataRequest sym);
          lift (twelveDataQuote sym data))
         (mret (twelveDataSample sym))) SYMBOLS);
  setDataSource TwelveData;;
  setNote "TwelveData demo in use; missing quotes filled with sample prices.";;
  mret out.

(** The body of [run], over the three adapters it calls. *)
Definition run_with (adapterA adapterB adapterC : M (list Stock)) : M unit :=
  setLoading true;;
  setError "";;
  setNote "";;
  try_finally
    (try_catch
       (res ← adapterA; setStocks res)
       (try_catch
          (res ← adapterB; setStocks res)
          (try_catch
             (res ← adapterC; setStocks res)
             (setStocks DEMO;;
              setDataSource Demo;;
              setNote "Using local demo data (APIs unavailable)."))))
    (setLoading false).

Definition run : M unit :=
  run_with fetchWithFinnhub fetchWithFMP fetchWithTwelveData.

End Pipeline.

(** ** Auxiliary definitions for the statements *)

(** The state in which [run] calls its first adapter: after
    [setLoading(true); setError(""); setNote("")]. *)
Definition started (s : AppState) : AppState :=
  with_note "" (with_error "" (with_loading true s)).

(** The state the innermost [catch] of [run] leaves. *)
Definition exhausted (s : AppState) : AppState :=
  with_note "Using local demo data (APIs unavailable)."
    (with_dataSource Demo (with_stocks DEMO s)).

(** What one callback of [fetchWithFinnhub] settles to. *)
Definition finnhubOutcome `{JsRuntime} (net : Request → HttpResult)
    (env : option string) (sym : string) : Outcome Stock :=
  match net (finnhubRequest (API_KEY env) sym) with
  | Rejected => Throw AxiosError
  | Response data => finnhubQuote sym data
  end.

(** What one callback of [fetchWithTwelveData] resolves to. *)
Definition twelveDataOutcome `{JsRuntime} (net : Request → HttpResult)
    (sym : string) : Stock :=
  match net (twelveDataRequest sym) with
  | Rejected => twelveDataSample sym
  | Response data =>
      match twelveDataQuote sym data with
      | Return q => q
      | Throw _ => twelveDataSample sym
      end
  end.


(** *** Sample inputs *)

(** A runtime whose string conversions are trivial; the sample payloads
    below carry numbers as JSON numbers, so neither conversion is run. *)
Definition sampleRuntime : JsRuntime :=
  {| StringToNumber := λ _, nan; NumberToString := λ _, "" |}.

(** The state of a freshly mounted component. *)
Definition mounted : AppState := mkAppState [] true "" "" "" Demo [].

Definition offline : Request → HttpResult := λ _, Rejected.

Definition is_finnhub (r : Request) : bool :=
  String.eqb (url r) "https://finnhub.io/api/v1/quote".
Definition is_fmp (r : Request) : bool := String.eqb (url r) (url fmpRequest).
Definition is_twelveData (r : Request) : bool :=
  String.eqb (url r) "https://api.twelvedata.com/price".

(** Finnhub answers every symbol with [{"c": 110, "pc": 100}]. *)
Definition finnhub_up : Request → HttpResult := λ r,
  if is_finnhub r
  then Response (JObj (<["c" := JNum 110]> (<["pc" := JNum 100]> ∅)))
  else Rejected.

(** Finnhub answers every symbol with [{}]. *)
Definition finnhub_blank : Request → HttpResult := λ r,
  if is_finnhub r then Response (JObj ∅) else Rejected.


(** FMP answers with [[]]. *)
Definition fmp_empty : Request → HttpResult := λ r,
  if is_fmp r then Response (JArr []) else Rejected.

(** FMP answers with one well-formed entry, for a symbol nobody asked for. *)
Definition fmp_other : Request → HttpResult := λ r,
  if is_fmp r
  then Response (JArr [JObj (<["symbol" := JStr "TSLA"]>
         (<["price" := JNum 250]> (<["changesPercentage" := JNum 1.5]> ∅)))])
  else Rejected.

(** TwelveData answers every symbol with [{"price": 200}]. *)
Definition twelveData_up : Request → HttpResult := λ r,
  if is_twelveData r then Response (JObj (<["price" := JNum 200]> ∅))
  else Rejected.

(** As [twelveData_up], but the request for MSFT fails. *)
Definition twelveData_msft_down : Request → HttpResult := λ r,
  if bool_decide (params r = params (twelveDataRequest "MSFT"))
  then Rejected
  else twelveData_up r.

(** ** What the component renders *)

(** [String.prototype.toLowerCase] is the engine's: it follows the Unicode
    case mapping, which looks at the letters around the one it maps.  It is
    taken as an interface, with the one fact about it that is used: the
    empty string stays empty. *)
Class JsStrings := {
  toLowerCase : string → string;
  toLowerCase_empty : toLowerCase "" = "";
}.

(** [s.includes(search)] *)
Fixpoint includes (s search : string) : bool :=
  String.prefix search s
  || match s with
     | String _ s' => includes s' search
     | EmptyString => false
     end.

(** [v.toLowerCase()] for a property value [v]: only strings have the
    method. *)
Definition String_toLowerCase `{JsStrings} (v : JsVal) : Outcome string :=
  match v with
  | JStr s => Return (toLowerCase s)
  | _ => Throw TypeError
  end.

(** [l.filter(f)], the callback running on the elements from left to
    right. *)
Fixpoint Array_filter {A} (f : A → Outcome bool) (l : list A)
  : Outcome (list A) :=
  match l with
  | [] => Return []
  | x :: l' =>
      b ← f x;
      r ← Array_filter f l';
      mret (if b : bool then x :: r else r)
  end.

(** [const filtered = stocks.filter(...)] in the body of [App]. *)
Definition filtered `{JsStrings} (s : AppState) : Outcome (list Stock) :=
  Array_filter
    (λ q, sy ← String_toLowerCase (symbol q);
          mret (includes sy (toLowerCase (query s))))
    (stocks s).

(** The typing in the search box: [onChange] calls [setQuery]. *)
Definition with_query (v : string) (s : AppState) : AppState :=
  mkAppState (stocks s) (loading s) (error s) (note s) v (dataSource s)
    (requests s).
Definition setQuery (v : string) : M unit :=
  λ s, (Return (), with_query v s).

(** The colour classes of the change cell. *)
Inductive TextColor : Type := Green600 | Red600 | Gray500.

(** One [<tr>].  A cell that holds a number [x] shows [x.toFixed(2)] (after
    a dollar sign, or before a percent sign); an empty cell shows a dash. *)
Record Row : Type := mkRow {
  rowKey : JsVal;
  symbolCell : JsVal;
  priceCell : option float;
  changeCell : option float;
  changeClass : TextColor;
}.

Definition renderRow (s : Stock) : Row :=
  let hasPrice := Number_isFinite (price s) in
  let hasChange := Number_isFinite (change s) in
  let changeClass :=
    if hasChange
    then if (0 <=? change s)%float then Green600 else Red600
    else Gray500 in
  mkRow (symbol s) (symbol s)
    (if hasPrice then Some (price s) else None)
    (if hasChange then Some (change s) else None)
    changeClass.

(** The elements [App] returns: the source line, the note, the search box,
    the loading and error lines, the table, the sample chart under it and
    the line "No results.". *)
Record View : Type := mkView {
  sourceLine : DataSource;
  noteLine : option string;
  searchBox : string;
  loadingLine : bool;
  errorLine : option string;
  tableRows : option (list Row);
  chartData : option (list (string * float));
  noResults : bool;
}.

(** [x && <p>{x}</p>] for a string [x] *)
Definition shown_text (x : string) : option string :=
  if String.eqb x "" then None else Some x.

Definition render `{JsStrings} (s : AppState) : Outcome View :=
  f ← filtered s;
  let table := negb (loading s) && (0 <? length f)%nat in
  mret (mkView (dataSource s) (shown_text (note s)) (query s) (loading s)
          (shown_text (error s))
          (if table then Some (map renderRow f) else None)
          (if table
           then match f with
                | q :: _ =>
                    if Number_isFinite (price q)
                    then Some [("P3", (price q - 3)%float);
                               ("P2", (price q - 1)%float);
                               ("Now", price q)]
                    else None
                | [] => None
                end
           else None)
          (negb (loading s) && (length f =? 0)%nat)).

(** *** The cascade as a function of its inputs *)

(** A string made of code units that [trim] strips only. *)
Fixpoint blank (s : string) : bool :=
  match s with
  | String c s' => is_space c && blank s'
  | EmptyString => true
  end.

(** What one call of [run] is expected to leave: the quotes, the source,
    the note and the requests that were sent. *)
Record Resolution : Type := mkResolution {
  quotes : list Stock;
  source : DataSource;
  advisory : string;
  traffic : list Request;
}.

Definition resolve `{JsRuntime} (net : Request → HttpResult)
    (env : option string) : Resolution :=
  let asked :=
    if String.eqb (API_KEY env) "" then []
    else map (finnhubRequest (API_KEY env)) SYMBOLS in
  match (if String.eqb (API_KEY env) "" then Throw (Error "no-key")
         else fulfilled (map (finnhubOutcome net env) SYMBOLS)) with
  | Return r => mkResolution r Finnhub "" asked
  | Throw _ =>
      match (match net fmpRequest with
             | Rejected => Throw AxiosError
             | Response data => Array_map fmpQuote data
             end) with
      | Return r => mkResolution r FMP "" (asked ++ [fmpRequest])
      | Throw _ =>
          mkResolution (map (twelveDataOutcome net) SYMBOLS) TwelveData
            "TwelveData demo in use; missing quotes filled with sample prices."
            (asked ++ [fmpRequest] ++ map twelveDataRequest SYMBOLS)
      end
  end.

(** The quote an FMP entry stands for. *)
Definition entryStock (e : string * float * float) : Stock :=
  let '(sym, p, ch) := e in mkStock (JStr sym) p ch.

(** Whether a value is a string, and whether a quote passes the search
    for [qry] (when its symbol is a string). *)
Definition is_string (v : JsVal) : bool :=
  match v with
  | JStr _ => true
  | _ => false
  end.

Definition matches `{JsStrings} (qry : string) (q : Stock) : bool :=
  match symbol q with
  | JStr sy => includes (toLowerCase sy) (toLowerCase qry)
  | _ => false
  end.

(** *** Further sample inputs *)

(** Lower case for strings of code units below 256, where the engine maps
    unit by unit: the letters A-Z and the capital letters of the Latin-1
    block (192-222 but the multiplication sign, 215) move up by 32. *)
Definition lower_unit (c : Ascii.ascii) : Ascii.ascii :=
  let n := Ascii.nat_of_ascii c in
  if bool_decide ((65 ≤ n ≤ 90)%nat ∨ ((192 ≤ n ≤ 222)%nat ∧ n ≠ 215%nat))
  then Ascii.ascii_of_nat (n + 32)
  else c.

Fixpoint latin1_toLowerCase (s : string) : string :=
  match s with
  | String c s' => String (lower_unit c) (latin1_toLowerCase s')
  | EmptyString => EmptyString
  end.

Definition sampleStrings : JsStrings :=
  {| toLowerCase := latin1_toLowerCase; toLowerCase_empty := eq_refl |}.

(** An FMP entry as the adapter reads it. *)
Definition fmpEntry (e : string * float * float) : JsVal :=
  let '(sym, p, ch) := e in
  JObj (<["symbol" := JStr sym]> (<["price" := JNum p]>
         (<["changesPercentage" := JNum ch]> ∅))).

(** FMP answers with one entry whose symbol is a number. *)
Definition fmp_numeric_symbol : Request → HttpResult := λ r,
  if is_fmp r
  then Response (JArr [JObj (<["symbol" := JNum 7]>
                               (<["price" := JNum 250]> ∅))])
  else Rejected.

(** FMP answers with entries for two of the symbols. *)
Definition fmp_two : Request → HttpResult := λ r,
  if is_fmp r
  then Response (JArr (map fmpEntry
         [("MSFT", 452%float, 1%float); ("AAPL", 228%float, (-1)%float)]))
  else Rejected.

(** Only the Finnhub request for GOOGL fails. *)
Definition finnhub_googl_down : Request → HttpResult := λ r,
  if bool_decide (params r = params (finnhubRequest "k" "GOOGL"))
  then Rejected
  else finnhub_up r.

(** ** Facts on the monad *)

Lemma sent_nil (s : AppState) : sent [] s = s.
Proof. destruct s; unfold sent; simpl. by rewrite app_nil_r. Qed.

Lemma sent_sent (rs rs' : list Request) (s : AppState) :
  sent rs' (sent rs s) = sent (rs ++ rs') s.
Proof. unfold sent; simpl. by rewrite app_assoc. Qed.

(** Callbacks that send one request each and settle to an outcome fixed by
    their argument: all requests leave, in the order of the list. *)
Lemma settle_map {A} (f : string → M A) (o : string → Outcome A)
    (r : string → Request) (l : list string) (s : AppState) :
  (∀ sym s0, f sym s0 = (o sym, sent [r sym] s0)) →
  settle (map f l) s = (map o l, sent (map r l) s).
Proof.
  intros Hf. revert s. induction l as [|sym l IH]; intros s; simpl.
  - by rewrite sent_nil.
  - rewrite Hf, IH, sent_sent. reflexivity.
Qed.

Lemma fulfilled_map_Return {A B} (g : B → A) (l : list B) :
  fulfilled (map (λ x, Return (g x)) l) = Return (map g l).
Proof. induction l as [|x l IH]; simpl; [done | by rewrite IH]. Qed.

Lemma fulfilled_Return_inv {A} (os : list (Outcome A)) (l : list A) :
  fulfilled os = Return l → os = map Return l.
Proof.
  revert l. induction os as [|[a|e] os IH]; intros l; simpl.
  - by intros [= <-].
  - destruct (fulfilled os) as [l'|e]; [|done].
    intros [= <-]. simpl. by rewrite (IH l').
  - done.
Qed.

(** ** The cascade, case by case *)

Lemma run_with_eq (adapterA adapterB adapterC : M (list Stock)) (s : AppState) :
  run_with adapterA adapterB adapterC s =
  match adapterA (started s) with
  | (Return r, s1) => (Return (), with_loading false (with_stocks r s1))
  | (Throw _, s1) =>
      match adapterB s1 with
      | (Return r, s2) => (Return (), with_loading false (with_stocks r s2))
      | (Throw _, s2) =>
          match adapterC s2 with
          | (Return r, s3) =>
              (Return (), with_loading false (with_stocks r s3))
          | (Throw _, s3) => (Return (), with_loading false (exhausted s3))
          end
      end
  end.
Proof.
  unfold run_with, try_finally, try_catch, started, exhausted.
  unfold mbind, M_bind, setLoading, setError, setNote, setStocks,
    setDataSource.
  destruct (adapterA _) as [[r|e] s1]; [done|].
  destruct (adapterB _) as [[r|e'] s2]; [done|].
  destruct (adapterC _) as [[r|e''] s3]; done.
Qed.

(** A rule for the cascade: a property of the final state holds when it holds
    on each of the four ways through the nested handlers. *)
Lemma run_with_post (P : AppState → Prop)
    (adapterA adapterB adapterC : M (list Stock)) (s : AppState) :
  (∀ r s1, adapterA (started s) = (Return r, s1) →
     P (with_loading false (with_stocks r s1))) →
  (∀ e s1 r s2, adapterA (started s) = (Throw e, s1) →
     adapterB s1 = (Return r, s2) →
     P (with_loading false (with_stocks r s2))) →
  (∀ e s1 e' s2 r s3, adapterA (started s) = (Throw e, s1) →
     adapterB s1 = (Throw e', s2) → adapterC s2 = (Return r, s3) →
     P (with_loading false (with_stocks r s3))) →
  (∀ e s1 e' s2 e'' s3, adapterA (started s) = (Throw e, s1) →
     adapterB s1 = (Throw e', s2) → adapterC s2 = (Throw e'', s3) →
     P (with_loading false (exhausted s3))) →
  ∃ s', run_with adapterA adapterB adapterC s = (Return (), s') ∧ P s'.
Proof.
  intros HA HB HC HD. rewrite run_with_eq.
  destruct (adapterA _) as [[r|e] s1] eqn:EA;
    [eexists; split; [reflexivity | by eapply HA]|].
  destruct (adapterB _) as [[r|e'] s2] eqn:EB;
    [eexists; split; [reflexivity | by eapply HB]|].
  destruct (adapterC _) as [[r|e''] s3] eqn:EC;
    eexists; (split; [reflexivity|]); [by eapply HC | by eapply HD].
Qed.

(** ** The adapters, as equations *)

Section Adapters.
Context `{JsRuntime}.
Variable net : Request → HttpResult.
Variable env : option string.

Lemma finnhubQuote_nullish (sym : string) (data : JsVal) :
  is_nullish data = true → finnhubQuote sym data = Throw TypeError.
Proof. by destruct data. Qed.

Lemma finnhubQuote_eq (sym : string) (data : JsVal) :
  is_nullish data = false →
  finnhubQuote sym data =
  match Number (optChain data "c") with
  | Throw e => Throw e
  | Return current =>
      match Number (optChain data "pc") with
      | Throw e => Throw e
      | Return prev =>
          Return (mkStock (JStr sym) current
                    (if truthy prev
                     then ((current - prev) / prev * 100)%float
                     else 0%float))
      end
  end.
Proof. by destruct data. Qed.

Lemma finnhubQuote_symbol (sym : string) (data : JsVal) (q : Stock) :
  finnhubQuote sym data = Return q → symbol q = JStr sym.
Proof.
  destruct (is_nullish data) eqn:E.
  - by rewrite finnhubQuote_nullish.
  - rewrite finnhubQuote_eq by done.
    destruct (Number (optChain data "c")); [|done].
    destruct (Number (optChain data "pc")); [|done].
    by intros [= <-].
Qed.


(** [Number] throws nothing but a [TypeError], and on an object it throws
    exactly when the object has a key [toString] of its own. *)
Lemma ToString_Throw (v : JsVal) (e : Exn) :
  ToString v = Throw e → e = TypeError.
Proof.
  revert v e. fix IH 1. intros [| |[]| | |l|m] e; simpl; try done.
  - assert (Hjoin : ∀ x,
      (fix join (l : list JsVal) : Outcome (list string) :=
         match l with
         | [] => Return []
         | e :: l' =>
             match (if is_nullish e then Return "" else ToString e) with
             | Return s =>
                 match join l' with
                 | Return ss => Return (s :: ss)
                 | Throw x => Throw x
                 end
             | Throw x => Throw x
             end
         end) l = Throw x → x = TypeError).
    { induction l as [|d l IHl]; intros x; [done|].
      destruct (is_nullish d).
      - destruct (_ l) eqn:El; [done|]. intros [= <-]. by apply IHl.
      - destruct (ToString d) eqn:Ed.
        + destruct (_ l) eqn:El; [done|]. intros [= <-]. by apply IHl.
        + intros [= <-]. by apply (IH d). }
    destruct (_ l) eqn:El; [done|]. intros [= <-]. by apply Hjoin.
  - destruct (m !! "toString"); [by intros [= <-] | done].
Qed.

Lemma Number_Throw (v : JsVal) (e : Exn) :
  Number v = Throw e → e = TypeError.
Proof.
  destruct v as [| |[]| | |l|m]; try (simpl; done).
  - unfold Number. destruct (ToString (JArr l)) eqn:E; [done|].
    intros [= <-]. by apply ToString_Throw in E.
  - simpl. destruct (m !! "toString"); [by intros [= <-] | done].
Qed.


Lemma fetchWithFinnhub_eq (s : AppState) :
  fetchWithFinnhub net env s =
  if String.eqb (API_KEY env) "" then (Throw (Error "no-key"), s) else
  match fulfilled (map (finnhubOutcome net env) SYMBOLS) with
  | Return r =>
      (Return r,
       with_dataSource Finnhub
         (sent (map (finnhubRequest (API_KEY env)) SYMBOLS) s))
  | Throw e => (Throw e, sent (map (finnhubRequest (API_KEY env)) SYMBOLS) s)
  end.
Proof.
  unfold fetchWithFinnhub. destruct (String.eqb _ _); [done|].
  unfold mbind at 1, M_bind at 1, Promise_all.
  rewrite (settle_map _ (finnhubOutcome net env)
             (finnhubRequest (API_KEY env))).
  - by destruct (fulfilled _).
  - intros sym s0. unfold mbind, M_bind, axios_get, finnhubOutcome, lift.
    by destruct (net _).
Qed.

Lemma fetchWithFMP_eq (s : AppState) :
  fetchWithFMP net s =
  match net fmpRequest with
  | Rejected => (Throw AxiosError, sent [fmpRequest] s)
  | Response data =>
      match Array_map fmpQuote data with
      | Return mapped =>
          (Return mapped, with_dataSource FMP (sent [fmpRequest] s))
      | Throw e => (Throw e, sent [fmpRequest] s)
      end
  end.
Proof.
  unfold fetchWithFMP, mbind, M_bind, axios_get, lift.
  destruct (net fmpRequest) as [|data]; [done|].
  by destruct (Array_map fmpQuote data).
Qed.

Lemma fetchWithTwelveData_eq (s : AppState) :
  fetchWithTwelveData net s =
  (Return (map (twelveDataOutcome net) SYMBOLS),
   with_note "TwelveData demo in use; missing quotes filled with sample prices."
     (with_dataSource TwelveData (sent (map twelveDataRequest SYMBOLS) s))).
Proof.
  unfold fetchWithTwelveData.
  unfold mbind at 1, M_bind at 1, Promise_all.
  rewrite (settle_map _ (λ sym, Return (twelveDataOutcome net sym))
             twelveDataRequest).
  - by rewrite fulfilled_map_Return.
  - intros sym s0.
    unfold try_catch, mbind, M_bind, axios_get, twelveDataOutcome, lift.
    destruct (net _) as [|data]; [done|].
    by destruct (twelveDataQuote sym data).
Qed.

End Adapters.

Lemma finnhub_symbols `{JsRuntime} (net : Request → HttpResult)
    (env : option string) (l : list string) (r : list Stock) :
  map (finnhubOutcome net env) l = map Return r →
  symbol <$> r = JStr <$> l.
Proof.
  revert r. induction l as [|sym l IH]; intros [|q r]; simpl; try done.
  intros [= Hq Hr]. f_equal; [|by apply IH].
  unfold finnhubOutcome in Hq. destruct (net _) as [|data]; [done|].
  by apply finnhubQuote_symbol in Hq.
Qed.

(** A TwelveData quote is the sample, or carries the finite number the
    provider gave. *)
Lemma twelveDataOutcome_cases `{JsRuntime} (net : Request → HttpResult)
    (sym : string) :
  twelveDataOutcome net sym = twelveDataSample sym
  ∨ ∃ raw, is_finite raw = true
           ∧ twelveDataOutcome net sym = mkStock (JStr sym) raw 0.
Proof.
  unfold twelveDataOutcome. destruct (net _) as [|data]; [by left|].
  unfold twelveDataQuote.
  destruct (Number (optChain data "price")) as [raw|e]; [|by left]. simpl.
  unfold Number_isFinite. destruct (is_finite raw) eqn:E; [|by left].
  right. by exists raw.
Qed.

Lemma twelveData_symbols `{JsRuntime} (net : Request → HttpResult)
    (l : list string) :
  symbol <$> map (twelveDataOutcome net) l = JStr <$> l.
Proof.
  induction l as [|sym l IH]; simpl; [done|]. f_equal; [|done].
  by destruct (twelveDataOutcome_cases net sym) as [->|(raw & _ & ->)].
Qed.

Lemma twelveData_change `{JsRuntime} (net : Request → HttpResult)
    (l : list string) :
  Forall (λ q, change q = 0%float) (map (twelveDataOutcome net) l).
Proof.
  induction l as [|sym l IH]; simpl; constructor; [|done].
  by destruct (twelveDataOutcome_cases net sym) as [->|(raw & _ & ->)].
Qed.

Lemma twelveData_finite `{JsRuntime} (net : Request → HttpResult) :
  Forall (λ q, is_finite (price q) = true)
    (map (twelveDataOutcome net) SYMBOLS).
Proof.
  unfold SYMBOLS. simpl.
  repeat constructor;
    match goal with
    | |- context [twelveDataOutcome net ?sym] =>
        by destruct (twelveDataOutcome_cases net sym) as [->|(raw & ? & ->)]
    end.
Qed.

(** ** The claims *)

(** C1: whatever the three adapters do (return or throw, after any state
    changes), [run] completes normally: it returns, with the loading flag
    cleared, and never throws to its caller.  When all three throw, it still
    returns, in the state of the sample-data branch. *)
Theorem run_never_throws (adapterA adapterB adapterC : M (list Stock))
    (s : AppState) :
  ∃ s', run_with adapterA adapterB adapterC s = (Return (), s')
        ∧ loading s' = false.
Proof.
  rewrite run_with_eq.
  destruct (adapterA _) as [[r|e] s1]; [by eexists|].
  destruct (adapterB _) as [[r|e'] s2]; [by eexists|].
  destruct (adapterC _) as [[r|e''] s3]; by eexists.
Qed.

(** C3: when the three adapters throw in turn, [run] ends with the source
    [Demo], the note "Using local demo data (APIs unavailable).", which is
    not empty, and the table [DEMO] as quotes, whose prices are the sample
    prices of the symbols. *)
Theorem all_fail_gives_demo (adapterA adapterB adapterC : M (list Stock))
    (s sA sB sC : AppState) (eA eB eC : Exn) :
  adapterA (started s) = (Throw eA, sA) →
  adapterB sA = (Throw eB, sB) →
  adapterC sB = (Throw eC, sC) →
  ∃ s', run_with adapterA adapterB adapterC s = (Return (), s')
        ∧ dataSource s' = Demo
        ∧ note s' = "Using local demo data (APIs unavailable)."
        ∧ note s' ≠ ""
        ∧ stocks s' = DEMO
        ∧ Forall2 (λ sym q, symbol q = JStr sym
                            ∧ FALLBACK !! sym = Some (price q))
            SYMBOLS (stocks s').
Proof.
  intros HA HB HC. rewrite run_with_eq, HA, HB, HC.
  eexists. split; [done|]. simpl.
  repeat split; try done.
  repeat constructor.
Qed.

Lemma all_fail_gives_demo_witness :
  ∃ s', run_with (@fetchWithFinnhub sampleRuntime offline None)
          (@fetchWithFMP sampleRuntime offline) (throw AxiosError) mounted
        = (Return (), s')
        ∧ dataSource s' = Demo
        ∧ note s' = "Using local demo data (APIs unavailable)."
        ∧ note s' ≠ ""
        ∧ stocks s' = DEMO
        ∧ Forall2 (λ sym q, symbol q = JStr sym
                            ∧ FALLBACK !! sym = Some (price q))
            SYMBOLS (stocks s').
Proof.
  eapply (all_fail_gives_demo _ _ _ mounted); reflexivity.
Defined.

(** C4: when the Finnhub adapter returns, [run] ends with the source
    [Finnhub] and that adapter's quotes, one per symbol in order, and the
    only requests that left are the Finnhub ones: whatever the other two
    adapters are, they were not called. *)
Theorem finnhub_success_skips_others `{JsRuntime}
    (net : Request → HttpResult) (env : option string)
    (adapterB adapterC : M (list Stock)) (s s1 : AppState) (r : list Stock) :
  fetchWithFinnhub net env (started s) = (Return r, s1) →
  ∃ s', run_with (fetchWithFinnhub net env) adapterB adapterC s
        = (Return (), s')
        ∧ dataSource s' = Finnhub
        ∧ stocks s' = r
        ∧ symbol <$> r = JStr <$> SYMBOLS
        ∧ requests s'
          = (requests s ++ map (finnhubRequest (API_KEY env)) SYMBOLS)%list.
Proof.
  intros HA. rewrite run_with_eq, HA.
  rewrite fetchWithFinnhub_eq in HA.
  destruct (String.eqb _ _); [done|].
  destruct (fulfilled _) as [r'|e] eqn:Hful; [|done].
  injection HA as -> <-.
  eexists. split; [done|]. simpl. repeat split.
  apply fulfilled_Return_inv in Hful. exact (finnhub_symbols _ _ _ _ Hful).
Qed.

Lemma finnhub_success_skips_others_witness :
  ∃ s', run_with (@fetchWithFinnhub sampleRuntime finnhub_up (Some "k"))
          (@fetchWithFMP sampleRuntime finnhub_up)
          (@fetchWithTwelveData sampleRuntime finnhub_up) mounted
        = (Return (), s')
        ∧ dataSource s' = Finnhub
        ∧ stocks s' = map (λ sym, mkStock (JStr sym) 110 10) SYMBOLS
        ∧ symbol <$> map (λ sym, mkStock (JStr sym) 110 10) SYMBOLS
          = JStr <$> SYMBOLS
        ∧ requests s'
          = (requests mounted
             ++ map (finnhubRequest (API_KEY (Some "k"))) SYMBOLS)%list.
Proof.
  eapply (@finnhub_success_skips_others sampleRuntime finnhub_up (Some "k")
            _ _ mounted).
  reflexivity.
Defined.

(** C5: with no credential (the variable unset or empty, or blank after
    trimming) the Finnhub adapter throws at once and leaves the state as it
    was, so no request has left; and when the first adapter throws and the
    FMP adapter returns, [run] ends with the source [FMP] and its quotes. *)
Theorem no_key_fails_then_fmp `{JsRuntime} (net : Request → HttpResult) :
  API_KEY None = "" ∧ API_KEY (Some "") = ""
  ∧ (∀ env s, API_KEY env = "" →
       fetchWithFinnhub net env s = (Throw (Error "no-key"), s))
  ∧ (∀ (adapterA adapterC : M (list Stock)) s e s1 r s2,
       adapterA (started s) = (Throw e, s1) →
       fetchWithFMP net s1 = (Return r, s2) →
       ∃ s', run_with adapterA (fetchWithFMP net) adapterC s = (Return (), s')
             ∧ dataSource s' = FMP ∧ stocks s' = r).
Proof.
  repeat split.
  - intros env s Hkey. unfold fetchWithFinnhub. by rewrite Hkey.
  - intros adapterA adapterC s e s1 r s2 HA HB.
    rewrite run_with_eq, HA, HB. rewrite fetchWithFMP_eq in HB.
    destruct (net fmpRequest) as [|data]; [done|].
    destruct (Array_map _ _); [|done].
    injection HB as -> <-. by eexists.
Qed.

Lemma no_key_fails_then_fmp_witness :
  @fetchWithFinnhub sampleRuntime fmp_other (Some "  ") mounted
  = (Throw (Error "no-key"), mounted)
  ∧ ∃ s', run_with (@fetchWithFinnhub sampleRuntime fmp_other None)
            (@fetchWithFMP sampleRuntime fmp_other)
            (@fetchWithTwelveData sampleRuntime fmp_other) mounted
          = (Return (), s')
          ∧ dataSource s' = FMP
          ∧ stocks s' = [mkStock (JStr "TSLA") 250 1.5].
Proof.
  pose proof (@no_key_fails_then_fmp sampleRuntime fmp_other)
    as (_ & _ & Hkey & Hcascade).
  split.
  - apply Hkey. reflexivity.
  - eapply Hcascade; reflexivity.
Defined.

(** C10: [fetchWithTwelveData] returns in every state, with a finite price
    in each quote, so a cascade that reaches it ends with the source
    [TwelveData]; and [run] never ends with the source [Demo], that is, its
    innermost [catch] is never entered. *)
Theorem twelveData_total `{JsRuntime} (net : Request → HttpResult)
    (env : option string) (s : AppState) :
  (∀ s0, ∃ out s1, fetchWithTwelveData net s0 = (Return out, s1)
                   ∧ Forall (λ q, is_finite (price q) = true) out)
  ∧ (∀ (adapterA adapterB : M (list Stock)) eA sA eB sB,
       adapterA (started s) = (Throw eA, sA) →
       adapterB sA = (Throw eB, sB) →
       ∃ s', run_with adapterA adapterB (fetchWithTwelveData net) s
             = (Return (), s')
             ∧ dataSource s' = TwelveData)
  ∧ (∃ s', run net env s = (Return (), s') ∧ dataSource s' ≠ Demo).
Proof.
  split; [|split].
  - intros s0. rewrite fetchWithTwelveData_eq. do 2 eexists.
    split; [done|]. apply twelveData_finite.
  - intros adapterA adapterB eA sA eB sB HA HB.
    rewrite run_with_eq, HA, HB, fetchWithTwelveData_eq. by eexists.
  - unfold run. apply run_with_post.
    + intros r s1 HA. rewrite fetchWithFinnhub_eq in HA.
      destruct (String.eqb _ _); [done|].
      destruct (fulfilled _); [|done]. by injection HA as _ <-.
    + intros e0 s1 r s2 _ HB. rewrite fetchWithFMP_eq in HB.
      destruct (net fmpRequest) as [|data]; [done|].
      destruct (Array_map _ _); [|done]. by injection HB as _ <-.
    + intros e0 s1 e1 s2 r s3 _ _ HC. rewrite fetchWithTwelveData_eq in HC.
      by injection HC as _ <-.
    + intros e0 s1 e1 s2 e2 s3 _ _ HC.
      by rewrite fetchWithTwelveData_eq in HC.
Qed.

Lemma twelveData_total_witness :
  ∃ s', run_with (@fetchWithFinnhub sampleRuntime offline (Some "k"))
          (@fetchWithFMP sampleRuntime offline)
          (@fetchWithTwelveData sampleRuntime offline) mounted
        = (Return (), s')
        ∧ dataSource s' = TwelveData.
Proof.
  eapply (proj1 (proj2
            (@twelveData_total sampleRuntime offline (Some "k") mounted)));
    reflexivity.
Defined.

(** C9: the table [FALLBACK] of the TwelveData adapter and the table [DEMO]
    of the cascade give every configured symbol the same price; both list
    exactly the configured symbols, which are distinct; and the price the
    TwelveData adapter substitutes is that price. *)
Theorem fallback_tables_agree :
  map (λ sym, FALLBACK !! sym) SYMBOLS = map (λ d, Some (price d)) DEMO
  ∧ map symbol DEMO = map JStr SYMBOLS
  ∧ dom FALLBACK = list_to_set SYMBOLS
  ∧ NoDup SYMBOLS
  ∧ map (λ sym, price (twelveDataSample sym)) SYMBOLS = map price DEMO.
Proof.
  split; [reflexivity|]. split; [reflexivity|]. split; [|split].
  - unfold FALLBACK, SYMBOLS. rewrite !dom_insert_L, dom_empty_L. simpl.
    set_solver.
  - apply (bool_decide_unpack _). reflexivity.
  - reflexivity.
Qed.

Lemma lookup_map {A B} (f : A → B) (l : list A) (i : nat) :
  map f l !! i = f <$> (l !! i).
Proof. exact (list_lookup_fmap f l i). Qed.


Lemma sample_price (X : string) :
  X ∈ SYMBOLS →
  ∃ d, d ∈ DEMO ∧ symbol d = JStr X ∧ FALLBACK !! X = Some (price d).
Proof.
  unfold SYMBOLS. rewrite !elem_of_cons, elem_of_nil.
  intros [->|[->|[->|[->|[]]]]]; eexists.
  - split; [apply list_elem_of_here|]. split; reflexivity.
  - split; [do 1 apply list_elem_of_further; apply list_elem_of_here|].
    split; reflexivity.
  - split; [do 2 apply list_elem_of_further; apply list_elem_of_here|].
    split; reflexivity.
  - split; [do 3 apply list_elem_of_further; apply list_elem_of_here|].
    split; reflexivity.
Qed.

(** C6: let the TwelveData request for a configured symbol X be rejected.
    The adapter still returns; the source becomes [TwelveData] and the note
    is set; there is one quote per symbol, each with change [0]; the quote
    of X carries the price the table [DEMO] has for X and change [0]; and
    the quote of every other symbol is the one it is when X's request is
    answered, whenever the other answers are the same. *)
Theorem twelveData_symbol_failure `{JsRuntime}
    (net net' : Request → HttpResult) (X : string) (s : AppState) :
  X ∈ SYMBOLS →
  net' (twelveDataRequest X) = Rejected →
  (∀ Y, Y ≠ X → net' (twelveDataRequest Y) = net (twelveDataRequest Y)) →
  ∃ out out' s1 s1',
    fetchWithTwelveData net s = (Return out, s1)
    ∧ fetchWithTwelveData net' s = (Return out', s1')
    ∧ dataSource s1' = TwelveData
    ∧ note s1'
      = "TwelveData demo in use; missing quotes filled with sample prices."
    ∧ symbol <$> out' = JStr <$> SYMBOLS
    ∧ Forall (λ q, change q = 0%float) out'
    ∧ (∀ i, SYMBOLS !! i = Some X →
         ∃ d, d ∈ DEMO ∧ symbol d = JStr X
              ∧ out' !! i = Some (mkStock (JStr X) (price d) 0))
    ∧ (∀ i Y, SYMBOLS !! i = Some Y → Y ≠ X → out' !! i = out !! i).
Proof.
  intros HX Hrej Hsame. rewrite !fetchWithTwelveData_eq.
  do 4 eexists. do 4 (split; [reflexivity|]).
  split; [apply twelveData_symbols|]. split; [apply twelveData_change|].
  split.
  - intros i Hi. destruct (sample_price X HX) as (d & Hd & Hsym & Hp).
    exists d. do 2 (split; [done|]).
    rewrite lookup_map, Hi. simpl.
    unfold twelveDataOutcome, twelveDataSample. by rewrite Hrej, Hp.
  - intros i Y Hi HY. rewrite !lookup_map, Hi. simpl.
    unfold twelveDataOutcome. by rewrite Hsame.
Qed.

Lemma twelveData_symbol_failure_witness :
  ∃ out out' s1 s1',
    @fetchWithTwelveData sampleRuntime twelveData_up mounted = (Return out, s1)
    ∧ @fetchWithTwelveData sampleRuntime twelveData_msft_down mounted
      = (Return out', s1')
    ∧ dataSource s1' = TwelveData
    ∧ note s1'
      = "TwelveData demo in use; missing quotes filled with sample prices."
    ∧ symbol <$> out' = JStr <$> SYMBOLS
    ∧ Forall (λ q, change q = 0%float) out'
    ∧ (∀ i, SYMBOLS !! i = Some "MSFT" →
         ∃ d, d ∈ DEMO ∧ symbol d = JStr "MSFT"
              ∧ out' !! i = Some (mkStock (JStr "MSFT") (price d) 0))
    ∧ (∀ i Y, SYMBOLS !! i = Some Y → Y ≠ "MSFT" → out' !! i = out !! i).
Proof.
  apply (@twelveData_symbol_failure sampleRuntime twelveData_up
           twelveData_msft_down "MSFT" mounted).
  - apply list_elem_of_further, list_elem_of_here.
  - reflexivity.
  - intros Y HY. unfold twelveData_msft_down.
    destruct (bool_decide_reflect
      (params (twelveDataRequest Y) = params (twelveDataRequest "MSFT")))
      as [Heq|_]; [|reflexivity].
    exfalso. apply HY. by injection Heq.
Defined.

(** C7: from a payload that can be read and whose fields [c] and [pc]
    [Number] converts, to [current] and [prev], the Finnhub callback builds
    a quote whose price is [current] and whose change is
    [(current - prev) / prev * 100] when [prev] is a number other than zero,
    and [0] when [prev] is zero, which is not [NaN] (a [prev] that is itself
    [NaN] is falsy and gives [0] as well).  For [c = 110] and [pc = 100] the
    change is exactly [10]; for [pc = 0] it is exactly [0], whatever the
    price. *)
Theorem finnhub_changePercent `{JsRuntime} (sym : string) (data : JsVal)
    (current prev : float) :
  is_nullish data = false →
  Number (optChain data "c") = Return current →
  Number (optChain data "pc") = Return prev →
  ∃ q, finnhubQuote sym data = Return q
       ∧ price q = current
       ∧ (is_nan prev = false → is_zero prev = false →
            change q = ((current - prev) / prev * 100)%float)
       ∧ (is_zero prev = true →
            change q = 0%float ∧ is_nan (change q) = false)
       ∧ (is_nan prev = true → change q = 0%float)
       ∧ finnhubQuote sym (JObj (<["c" := JNum 110]> (<["pc" := JNum 100]> ∅)))
         = Return (mkStock (JStr sym) 110 10)
       ∧ ∀ x, finnhubQuote sym (JObj (<["c" := JNum x]> (<["pc" := JNum 0]> ∅)))
              = Return (mkStock (JStr sym) x 0).
Proof.
  intros Hdata Hc Hpc. rewrite finnhubQuote_eq, Hc, Hpc by done.
  eexists. split; [reflexivity|]. simpl.
  split; [reflexivity|]. unfold truthy.
  split; [|split; [|split; [|split]]].
  - intros -> ->. reflexivity.
  - intros ->. split; reflexivity.
  - intros ->. by rewrite orb_true_r.
  - reflexivity.
  - intros x. reflexivity.
Qed.

Lemma finnhub_changePercent_witness :
  ∃ q, @finnhubQuote sampleRuntime "AAPL"
         (JObj (<["c" := JNum 110]> (<["pc" := JNum 100]> ∅))) = Return q
       ∧ price q = 110%float
       ∧ change q = 10%float.
Proof.
  destruct (@finnhub_changePercent sampleRuntime "AAPL"
              (JObj (<["c" := JNum 110]> (<["pc" := JNum 100]> ∅)))
              110%float 100%float)
    as (q & Hq & Hprice & Hchange & _); [reflexivity..|].
  exists q. split; [exact Hq|]. split; [exact Hprice|].
  exact (Hchange eq_refl eq_refl).
Defined.

(** ** When the first two adapters return *)



Lemma fmpQuote_nullish `{JsRuntime} (d : JsVal) :
  is_nullish d = true → fmpQuote d = Throw TypeError.
Proof. by destruct d. Qed.

Lemma fmpQuote_eq `{JsRuntime} (d : JsVal) :
  is_nullish d = false →
  fmpQuote d =
  match Number (optChain d "price") with
  | Throw e => Throw e
  | Return p =>
      match Number (optChain d "changesPercentage") with
      | Throw e => Throw e
      | Return ch => Return (mkStock (optChain d "symbol") p ch)
      end
  end.
Proof. by destruct d. Qed.


Lemma fmpQuote_symbol `{JsRuntime} (d : JsVal) (q : Stock) :
  fmpQuote d = Return q → symbol q = optChain d "symbol".
Proof.
  destruct (is_nullish d) eqn:E.
  - by rewrite fmpQuote_nullish.
  - rewrite fmpQuote_eq by done.
    destruct (Number (optChain d "price")); [|done].
    destruct (Number (optChain d "changesPercentage")); [|done].
    by intros [= <-].
Qed.

(** [l.map(f)] returns exactly when [f] returns on every element, with the
    values in the order of the elements. *)
Lemma mapM_Return {A} (f : JsVal → Outcome A) (l : list JsVal) (r : list A) :
  mapM f l = Return r ↔ Forall2 (λ d q, f d = Return q) l r.
Proof.
  revert r. induction l as [|d l IH]; intros r; simpl.
  - split; [intros [= <-]; constructor | by intros ->%Forall2_nil_inv_l].
  - unfold mbind at 1, Outcome_bind at 1. destruct (f d) as [q|e] eqn:Ed.
    + unfold mbind, Outcome_bind. destruct (mapM f l) as [r'|e] eqn:El.
      * split.
        -- intros [= <-]. constructor; [done|]. by apply IH.
        -- intros (q' & r'' & Hq & Hr & ->)%Forall2_cons_inv_l.
           apply IH in Hr. injection Hr as <-.
           rewrite Ed in Hq. by injection Hq as <-.
      * split; [done|].
        intros (q' & r'' & _ & Hr & _)%Forall2_cons_inv_l.
        by apply IH in Hr.
    + split; [done|].
      intros (q' & r'' & Hq & _)%Forall2_cons_inv_l. congruence.
Qed.

Lemma mapM_is_Return {A} (f : JsVal → Outcome A) (l : list JsVal) :
  (∃ r, mapM f l = Return r) ↔ Forall (λ d, ∃ q, f d = Return q) l.
Proof.
  induction l as [|d l IH]; simpl.
  - split; [constructor | by eexists].
  - unfold mbind at 1, Outcome_bind at 1. rewrite Forall_cons.
    destruct (f d) as [q|e].
    + unfold mbind, Outcome_bind. rewrite <- IH.
      destruct (mapM f l) as [r'|e].
      * split; [intros _; split; by eexists | by eexists].
      * split; [by intros [r ?] | by intros (_ & r & ?)].
    + split; [by intros [r ?] | by intros ([q ?] & _)].
Qed.

Lemma Array_map_Return {A} (f : JsVal → Outcome A) (data : JsVal)
    (r : list A) :
  Array_map f data = Return r
  ↔ ∃ l, data = JArr l ∧ Forall2 (λ d q, f d = Return q) l r.
Proof.
  destruct data; simpl; try (split; [done | by intros (l0 & ? & _)]).
  rewrite mapM_Return. split.
  - intros ?. by eexists.
  - by intros (l0 & [= <-] & ?).
Qed.

Lemma symbols_length (r : list Stock) (l : list string) :
  symbol <$> r = JStr <$> l → length r = length l.
Proof.
  intros Heq. apply (f_equal length) in Heq. by rewrite !length_fmap in Heq.
Qed.

(** C2, the claim as stated fails: with no credential and FMP answering
    with an empty array, [run] ends with the source [FMP] and no quote at
    all, for four symbols; and an FMP answer about another symbol is taken
    as it is. *)
Lemma fmp_answer_breaks_quote_invariant :
  (∃ s', @run sampleRuntime fmp_empty None mounted = (Return (), s')
         ∧ dataSource s' = FMP
         ∧ stocks s' = []
         ∧ length (stocks s') ≠ length SYMBOLS)
  ∧ (∃ s', @run sampleRuntime fmp_other None mounted = (Return (), s')
           ∧ dataSource s' = FMP
           ∧ symbol <$> stocks s' = [JStr "TSLA"]).
Proof.
  split; eexists; (split; [reflexivity|]); repeat split. simpl. discriminate.
Qed.

(** C2, amended: [run] always returns.  When it ends with the source
    [Finnhub] or [TwelveData], the quotes are as many as the configured
    symbols and carry them in their order, each once, and so does the table
    [DEMO]; when it ends with the source [FMP], the quotes are one per
    element of the array FMP answered with, in the order of that array, each
    with the symbol its element carries. *)
Theorem run_quotes_by_source `{JsRuntime} (net : Request → HttpResult)
    (env : option string) (s : AppState) :
  NoDup SYMBOLS
  ∧ symbol <$> DEMO = JStr <$> SYMBOLS
  ∧ ∃ s', run net env s = (Return (), s')
          ∧ ((dataSource s' = Finnhub ∨ dataSource s' = TwelveData)
               ∧ symbol <$> stocks s' = JStr <$> SYMBOLS
               ∧ length (stocks s') = length SYMBOLS
             ∨ dataSource s' = FMP
               ∧ ∃ l, net fmpRequest = Response (JArr l)
                      ∧ Forall2 (λ d q, fmpQuote d = Return q
                                        ∧ symbol q = optChain d "symbol")
                          l (stocks s')
                      ∧ length (stocks s') = length l).
Proof.
  split; [apply (bool_decide_unpack _); reflexivity|].
  split; [reflexivity|].
  unfold run. apply run_with_post.
  - intros r s1 HA. rewrite fetchWithFinnhub_eq in HA.
    destruct (String.eqb _ _); [done|].
    destruct (fulfilled _) as [r'|e] eqn:Hful; [|done].
    injection HA as -> <-.
    apply fulfilled_Return_inv, finnhub_symbols in Hful.
    left. split; [by left|]. simpl. split; [done|].
    exact (symbols_length r SYMBOLS Hful).
  - intros e0 s1 r s2 _ HB. rewrite fetchWithFMP_eq in HB.
    destruct (net fmpRequest) as [|data] eqn:Hnet; [done|].
    destruct (Array_map fmpQuote data) as [mapped|e] eqn:Hmap; [|done].
    injection HB as -> <-.
    apply Array_map_Return in Hmap as (l & -> & Hall).
    right. split; [done|]. exists l. simpl. split; [done|]. split.
    + eapply Forall2_impl; [exact Hall|]. intros d q Hq.
      split; [done | by apply fmpQuote_symbol].
    + symmetry. by eapply Forall2_length.
  - intros e0 s1 e1 s2 r s3 _ _ HC. rewrite fetchWithTwelveData_eq in HC.
    injection HC as <- <-.
    left. split; [by right|]. simpl. split; [|done].
    exact (twelveData_symbols net SYMBOLS).
  - intros e0 s1 e1 s2 e2 s3 _ _ HC. by rewrite fetchWithTwelveData_eq in HC.
Qed.




(** ** Beyond the claims: the cascade as a whole *)

Lemma trim_start_blank (s : string) : trim_start s = "" ↔ blank s = true.
Proof.
  induction s as [|c s IH]; simpl; [done|].
  destruct (is_space c); simpl; [exact IH | split; done].
Qed.

Lemma trim_end_blank (s : string) : trim_end s = "" ↔ blank s = true.
Proof.
  induction s as [|c s IH]; simpl; [done|].
  destruct (trim_end s) as [|c' t] eqn:E.
  - destruct (is_space c); simpl; [|split; done].
    split; [intros _; by apply IH | done].
  - split; [done|]. intros [_ Hs]%andb_prop. by apply IH in Hs.
Qed.

Lemma trim_start_head (s : string) :
  match trim_start s with
  | String c _ => is_space c = false
  | EmptyString => True
  end.
Proof.
  induction s as [|c s IH]; simpl; [done|].
  by destruct (is_space c) eqn:E; simpl.
Qed.

Lemma trim_blank (s : string) : trim s = "" ↔ blank s = true.
Proof.
  unfold trim. rewrite trim_end_blank, <- (trim_start_blank s).
  pose proof (trim_start_head s) as Hhead.
  destruct (trim_start s) as [|c t]; simpl; [split; done|].
  rewrite Hhead. simpl. split; done.
Qed.

(** The final state of [run], in one equation. *)
Lemma run_resolve `{JsRuntime} (net : Request → HttpResult)
    (env : option string) (s : AppState) :
  run net env s =
  (Return (),
   mkAppState (quotes (resolve net env)) false "" (advisory (resolve net env))
     (query s) (source (resolve net env))
     (requests s ++ traffic (resolve net env))%list).
Proof.
  unfold run, resolve.
  rewrite run_with_eq, fetchWithFinnhub_eq.
  destruct (String.eqb _ _).
  - rewrite fetchWithFMP_eq. destruct (net fmpRequest) as [|data].
    + rewrite fetchWithTwelveData_eq. unfold sent; simpl.
      by rewrite <- !app_assoc.
    + destruct (Array_map _ _).
      * unfold sent; simpl. reflexivity.
      * rewrite fetchWithTwelveData_eq. unfold sent; simpl.
        by rewrite <- !app_assoc.
  - destruct (fulfilled _).
    + reflexivity.
    + rewrite fetchWithFMP_eq. destruct (net fmpRequest) as [|data].
      * rewrite fetchWithTwelveData_eq. unfold sent; simpl.
        by rewrite <- !app_assoc.
      * destruct (Array_map _ _).
        -- unfold sent; simpl. by rewrite <- !app_assoc.
        -- rewrite fetchWithTwelveData_eq. unfold sent; simpl.
           by rewrite <- !app_assoc.
Qed.

Lemma sent_same (rs : list Request) (s : AppState) : sent rs s = s → rs = [].
Proof.
  intros Heq. apply (f_equal requests) in Heq. simpl in Heq.
  apply (app_inv_head (requests s)). by rewrite app_nil_r.
Qed.

Lemma API_KEY_blank (env : option string) :
  API_KEY env = "" ↔ env = None ∨ ∃ k, env = Some k ∧ blank k = true.
Proof.
  unfold API_KEY. rewrite trim_blank. destruct env as [k|]; simpl.
  - split; [by eauto|]. by intros [|(k' & [= <-] & ?)].
  - split; [by left | done].
Qed.

(** X1: the Finnhub adapter gives up at once, throwing "no-key" and leaving
    the state as it was, exactly when the environment variable is unset, is
    empty or holds blanks only; with any other key it sends requests. *)
Theorem finnhub_skipped_iff_blank_key `{JsRuntime}
    (net : Request → HttpResult) (env : option string) (s : AppState) :
  fetchWithFinnhub net env s = (Throw (Error "no-key"), s)
  ↔ env = None ∨ ∃ k, env = Some k ∧ blank k = true.
Proof.
  rewrite <- API_KEY_blank, fetchWithFinnhub_eq.
  destruct (String.eqb _ _) eqn:E.
  - apply String.eqb_eq in E. by split.
  - apply String.eqb_neq in E. split; [|done].
    destruct (fulfilled _); [done|]. intros [= _ Hs].
    by apply sent_same in Hs.
Qed.

(** X2: with a key that is not blank, the Finnhub adapter sends one request
    per symbol, in the order of the symbols and with the trimmed key, whether
    it then returns or throws; when it throws, nothing but the log of
    requests has changed. *)
Theorem finnhub_sends_every_request `{JsRuntime}
    (net : Request → HttpResult) (env : option string) (s : AppState) :
  API_KEY env ≠ "" →
  ∃ o s1, fetchWithFinnhub net env s = (o, s1)
          ∧ requests s1
            = (requests s ++ map (finnhubRequest (API_KEY env)) SYMBOLS)%list
          ∧ (∀ e, o = Throw e →
               s1 = sent (map (finnhubRequest (API_KEY env)) SYMBOLS) s).
Proof.
  intros Hkey%String.eqb_neq. rewrite fetchWithFinnhub_eq, Hkey.
  destruct (fulfilled _); do 2 eexists; (split; [reflexivity|]); by split.
Qed.

Lemma finnhub_sends_every_request_witness :
  ∃ o s1, @fetchWithFinnhub sampleRuntime finnhub_googl_down (Some " k ")
            mounted = (o, s1)
          ∧ requests s1
            = (requests mounted ++ map (finnhubRequest "k") SYMBOLS)%list
          ∧ (∀ e, o = Throw e →
               s1 = sent (map (finnhubRequest "k") SYMBOLS) mounted).
Proof.
  apply (@finnhub_sends_every_request sampleRuntime finnhub_googl_down
           (Some " k ") mounted).
  discriminate.
Defined.

(** X3: the FMP adapter sends exactly one request, for all symbols at once;
    when it throws, nothing but the log of requests has changed, and when it
    returns, only the source has changed besides. *)
Theorem fmp_sends_one_request `{JsRuntime} (net : Request → HttpResult)
    (s : AppState) :
  ∃ o s1, fetchWithFMP net s = (o, s1)
          ∧ requests s1 = (requests s ++ [fmpRequest])%list
          ∧ url fmpRequest
            = "https://financialmodelingprep.com/api/v3/quote/AAPL,MSFT,GOOGL,AMZN?apikey=demo"
          ∧ match o with
            | Throw _ => s1 = sent [fmpRequest] s
            | Return _ => s1 = with_dataSource FMP (sent [fmpRequest] s)
            end.
Proof.
  rewrite fetchWithFMP_eq. destruct (net fmpRequest) as [|data].
  - by do 2 eexists.
  - destruct (Array_map _ _); by do 2 eexists.
Qed.

(** X4: the requests one call of [run] sends are fixed by the source it
    ends with: the Finnhub requests (when there is a key) and nothing else
    for [Finnhub]; those, then the FMP request for [FMP]; those, then one
    TwelveData request per symbol for [TwelveData].  A later provider is
    asked only after the earlier ones, and at most nine requests leave. *)
Theorem run_traffic_by_source `{JsRuntime} (net : Request → HttpResult)
    (env : option string) (s : AppState) :
  ∃ s' asked,
    run net env s = (Return (), s')
    ∧ asked = (if String.eqb (API_KEY env) "" then []
               else map (finnhubRequest (API_KEY env)) SYMBOLS)
    ∧ match dataSource s' with
      | Finnhub => API_KEY env ≠ "" ∧ requests s' = (requests s ++ asked)%list
      | FMP => requests s' = (requests s ++ asked ++ [fmpRequest])%list
      | TwelveData =>
          requests s'
          = (requests s ++ asked ++ [fmpRequest]
               ++ map twelveDataRequest SYMBOLS)%list
      | Demo => False
      end
    ∧ (length (requests s') ≤ length (requests s) + 9)%nat.
Proof.
  rewrite run_resolve. do 2 eexists. split; [reflexivity|].
  split; [reflexivity|]. unfold resolve.
  destruct (String.eqb _ _) eqn:E.
  - destruct (net fmpRequest) as [|data]; simpl.
    + split; [done|]. rewrite length_app. simpl. lia.
    + destruct (Array_map _ _); simpl;
        (split; [done|]); rewrite length_app; simpl; lia.
  - apply String.eqb_neq in E.
    destruct (fulfilled (A:=Stock) _); simpl.
    + split; [done|]. rewrite length_app. simpl. lia.
    + destruct (net fmpRequest) as [|data]; simpl.
      * split; [done|]. rewrite length_app. simpl. lia.
      * destruct (Array_map _ _); simpl;
          (split; [done|]); rewrite length_app; simpl; lia.
Qed.

(** X5: what [run] leaves in the cells for the quotes, the loading flag, the
    error, the note and the source does not depend on what was there before:
    two calls against the same providers and key end with the same values,
    whatever the states they start from.  The text of the search box is left
    as it was. *)
Theorem run_forgets_previous_state `{JsRuntime}
    (net : Request → HttpResult) (env : option string) (s t : AppState) :
  ∃ s' t',
    run net env s = (Return (), s') ∧ run net env t = (Return (), t')
    ∧ stocks s' = stocks t' ∧ loading s' = loading t'
    ∧ error s' = error t' ∧ note s' = note t'
    ∧ dataSource s' = dataSource t'
    ∧ query s' = query s ∧ query t' = query t.
Proof. rewrite !run_resolve. do 2 eexists. by repeat split. Qed.

(** X6: after [run] the loading flag is off and the error text is empty, so
    the error line is never shown; the note is empty when the source is
    [Finnhub] or [FMP] and is the TwelveData notice when the source is
    [TwelveData]. *)
Theorem run_note_by_source `{JsRuntime} (net : Request → HttpResult)
    (env : option string) (s : AppState) :
  ∃ s', run net env s = (Return (), s')
        ∧ loading s' = false
        ∧ error s' = ""
        ∧ match dataSource s' with
          | Finnhub | FMP => note s' = ""
          | TwelveData =>
              note s'
              = "TwelveData demo in use; missing quotes filled with sample prices."
          | Demo => False
          end.
Proof.
  rewrite run_resolve. eexists. split; [reflexivity|]. simpl.
  do 2 (split; [reflexivity|]). unfold resolve.
  destruct (if String.eqb _ _ then _ else _); [done|].
  destruct (net fmpRequest) as [|data]; [done|].
  by destruct (Array_map _ _).
Qed.

Lemma Array_map_fmpEntry `{JsRuntime} (es : list (string * float * float)) :
  Array_map fmpQuote (JArr (map fmpEntry es)) = Return (map entryStock es).
Proof.
  unfold Array_map. induction es as [|[[sym p] ch] es IH]; [done|].
  change (mapM fmpQuote (map fmpEntry ((sym, p, ch) :: es)))
    with (y ← fmpQuote (fmpEntry (sym, p, ch));
          k ← mapM fmpQuote (map fmpEntry es); mret (y :: k)).
  rewrite IH. reflexivity.
Qed.

(** X8: when the first adapter has thrown and FMP answers with an array of
    entries [{symbol, price, changesPercentage}] holding a string and two
    numbers each, [run] ends with the source [FMP] and exactly the quotes
    those entries stand for, in the order of the array. *)
Theorem fmp_entries_round_trip `{JsRuntime} (net : Request → HttpResult)
    (env : option string) (es : list (string * float * float))
    (s s1 : AppState) (e : Exn) :
  fetchWithFinnhub net env (started s) = (Throw e, s1) →
  net fmpRequest = Response (JArr (map fmpEntry es)) →
  ∃ s', run net env s = (Return (), s')
        ∧ dataSource s' = FMP
        ∧ stocks s' = map entryStock es.
Proof.
  intros HA Hnet. unfold run. rewrite run_with_eq, HA, fetchWithFMP_eq, Hnet.
  rewrite Array_map_fmpEntry. by eexists.
Qed.

Lemma fmp_entries_round_trip_witness :
  ∃ s', @run sampleRuntime fmp_two None mounted = (Return (), s')
        ∧ dataSource s' = FMP
        ∧ stocks s' = [mkStock (JStr "MSFT") 452 1;
                       mkStock (JStr "AAPL") 228 (-1)].
Proof.
  eapply (@fmp_entries_round_trip sampleRuntime fmp_two None
            [("MSFT", 452%float, 1%float); ("AAPL", 228%float, (-1)%float)]
            mounted);
    reflexivity.
Defined.

(** ** Beyond the claims: the search box and the table *)

Lemma prefix_spec (a s : string) :
  String.prefix a s = true ↔ ∃ b, s = a +:+ b.
Proof.
  revert s. induction a as [|c a IH]; intros [|c' s]; simpl.
  - split; [by exists "" | done].
  - split; [by exists (String c' s) | done].
  - split; [done | by intros [b ?]].
  - destruct (Ascii.ascii_dec c c') as [<-|Hne].
    + rewrite IH. split.
      * intros [b ->]. by exists b.
      * intros [b [= ->]]. by exists b.
    + split; [done|]. intros [b [= ? _]]. done.
Qed.

Lemma includes_spec (s sub : string) :
  includes s sub = true ↔ ∃ a b, s = a +:+ sub +:+ b.
Proof.
  induction s as [|c s IH].
  - change (includes "" sub) with (String.prefix sub "" || false).
    rewrite orb_false_r, prefix_spec. split.
    + intros [b Hb]. by exists "", b.
    + intros ([|c a] & b & Hab); [by exists b | done].
  - change (includes (String c s) sub)
      with (String.prefix sub (String c s) || includes s sub).
    rewrite orb_true_iff, prefix_spec, IH. split.
    + intros [[b Hb]|(a & b & Hab)].
      * by exists "", b.
      * exists (String c a), b. simpl. by rewrite Hab.
    + intros ([|c' a] & b & Hab).
      * left. by exists b.
      * right. exists a, b. by injection Hab.
Qed.

Lemma filtered_Return `{JsStrings} (s : AppState) :
  Forall (λ q, is_string (symbol q) = true) (stocks s) →
  filtered s = Return (List.filter (matches (query s)) (stocks s)).
Proof.
  unfold filtered. generalize (query s) as qry. intros qry.
  induction (stocks s) as [|q l IH]; intros Hall; [done|].
  apply Forall_cons in Hall as [Hq Hall]. simpl.
  unfold matches at 1. destruct (symbol q); try done. simpl.
  unfold mbind at 1, Outcome_bind at 1. rewrite (IH Hall). simpl.
  by destruct (includes _ _).
Qed.

Lemma filtered_Throw `{JsStrings} (s : AppState) :
  ¬ Forall (λ q, is_string (symbol q) = true) (stocks s) →
  filtered s = Throw TypeError.
Proof.
  unfold filtered. generalize (query s) as qry. intros qry.
  induction (stocks s) as [|q l IH]; intros Hall.
  - destruct Hall. constructor.
  - simpl. destruct (symbol q) eqn:Hsym; try done. simpl.
    unfold mbind at 1, Outcome_bind at 1. rewrite IH; [done|].
    intros Hl. apply Hall. constructor; [by rewrite Hsym | done].
Qed.

Lemma all_strings_dec (l : list Stock) :
  Forall (λ q, is_string (symbol q) = true) l
  ∨ ¬ Forall (λ q, is_string (symbol q) = true) l.
Proof.
  induction l as [|q l [IH|IH]].
  - left. constructor.
  - destruct (is_string (symbol q)) eqn:E.
    + left. by constructor.
    + right. intros [Hq _]%Forall_cons. congruence.
  - right. by intros [_ Hl]%Forall_cons.
Qed.

Lemma filtered_inv `{JsStrings} (s : AppState) (l : list Stock) :
  filtered s = Return l →
  Forall (λ q, is_string (symbol q) = true) (stocks s)
  ∧ l = List.filter (matches (query s)) (stocks s).
Proof.
  intros Hl. destruct (all_strings_dec (stocks s)) as [Hall|Hall].
  - split; [done|]. rewrite filtered_Return in Hl by done. congruence.
  - rewrite filtered_Throw in Hl by done. done.
Qed.

Lemma filter_sublist_implies {A} (f g : A → bool) (l : list A) :
  (∀ x, f x = true → g x = true) →
  sublist (List.filter f l) (List.filter g l).
Proof.
  intros Hfg. induction l as [|x l IH]; simpl; [constructor|].
  destruct (f x) eqn:Ef.
  - rewrite (Hfg x Ef). by constructor.
  - destruct (g x); [by constructor | done].
Qed.

Lemma filter_all {A} (f : A → bool) (l : list A) :
  (∀ x, x ∈ l → f x = true) → List.filter f l = l.
Proof.
  induction l as [|x l IH]; simpl; [done|]. intros Hall.
  rewrite (Hall x) by apply list_elem_of_here.
  f_equal. apply IH. intros y Hy. apply Hall. by apply list_elem_of_further.
Qed.

Lemma matches_spec `{JsStrings} (qry : string) (q : Stock) :
  matches qry q = true
  ↔ ∃ sy a b, symbol q = JStr sy
              ∧ toLowerCase sy = a +:+ toLowerCase qry +:+ b.
Proof.
  unfold matches. destruct (symbol q) as [| | | |sy| |];
    try (split; [done | by intros (? & ? & ? & ? & _)]).
  rewrite includes_spec. split.
  - intros (a & b & Hab). by exists sy, a, b.
  - intros (sy' & a & b & [= <-] & Hab). by exists a, b.
Qed.

(** X9: when the search returns, its result is the quotes of the state, in
    their order, whose symbol, in lower case, contains the text of the search
    box, in lower case, somewhere; nothing is added or reordered, and an
    empty search box keeps every quote. *)
Theorem search_results `{JsStrings} (s : AppState) (l : list Stock) :
  filtered s = Return l →
  sublist l (stocks s)
  ∧ (∀ q, q ∈ l ↔ q ∈ stocks s
                  ∧ ∃ sy a b, symbol q = JStr sy
                       ∧ toLowerCase sy = a +:+ toLowerCase (query s) +:+ b)
  ∧ (query s = "" → l = stocks s).
Proof.
  intros [Hall ->]%filtered_inv. split; [|split].
  - rewrite <- (filter_all (λ _, true) (stocks s)) at 2 by done.
    by apply filter_sublist_implies.
  - intros q. rewrite !list_elem_of_In, List.filter_In, matches_spec. done.
  - intros Hq. apply filter_all. intros q Hin. rewrite Hq.
    rewrite Forall_forall in Hall. specialize (Hall q Hin).
    apply matches_spec. destruct (symbol q) as [| | | |sy| |]; try done.
    exists sy, "", (toLowerCase sy). by rewrite toLowerCase_empty.
Qed.

Lemma search_results_witness :
  sublist [mkStock (JStr "MSFT") 452.12 (-0.32); mkStock (JStr "AMZN") 182.77 1.12]
    DEMO
  ∧ (∀ q, q ∈ [mkStock (JStr "MSFT") 452.12 (-0.32);
               mkStock (JStr "AMZN") 182.77 1.12]
          ↔ q ∈ DEMO
            ∧ ∃ sy a b, symbol q = JStr sy
                 ∧ @toLowerCase sampleStrings sy
                   = a +:+ @toLowerCase sampleStrings "M" +:+ b)
  ∧ ("M" = "" → [mkStock (JStr "MSFT") 452.12 (-0.32);
                 mkStock (JStr "AMZN") 182.77 1.12] = DEMO).
Proof.
  apply (@search_results sampleStrings
           (mkAppState DEMO false "" "" "M" Demo [])).
  reflexivity.
Defined.

Lemma render_Return `{JsStrings} (s : AppState) (f : list Stock) :
  filtered s = Return f →
  ∃ v, render s = Return v
       ∧ sourceLine v = dataSource s
       ∧ noteLine v = shown_text (note s)
       ∧ searchBox v = query s
       ∧ loadingLine v = loading s
       ∧ errorLine v = shown_text (error s)
       ∧ tableRows v
         = (if negb (loading s) && (0 <? length f)%nat
            then Some (map renderRow f) else None)
       ∧ noResults v = negb (loading s) && (length f =? 0)%nat.
Proof.
  intros Hf. unfold render. rewrite Hf. eexists. split; [reflexivity|].
  by repeat split.
Qed.

Lemma symbols_are_strings (l : list Stock) (syms : list string) :
  symbol <$> l = JStr <$> syms →
  Forall (λ q, is_string (symbol q) = true) l.
Proof.
  revert syms. induction l as [|q l IH]; intros syms; [constructor|].
  destruct syms as [|sym syms]; [done|].
  intros [= Hq Hl]. constructor; [by rewrite Hq | by eapply IH].
Qed.

Lemma resolve_symbols `{JsRuntime} (net : Request → HttpResult)
    (env : option string) :
  source (resolve net env) ≠ FMP →
  symbol <$> quotes (resolve net env) = JStr <$> SYMBOLS.
Proof.
  unfold resolve. destruct (String.eqb _ _).
  - destruct (net fmpRequest) as [|data].
    + intros _. exact (twelveData_symbols net SYMBOLS).
    + destruct (Array_map _ _); [done|].
      intros _. exact (twelveData_symbols net SYMBOLS).
  - destruct (fulfilled (A:=Stock) _) as [r|e] eqn:Hful.
    + intros _. apply fulfilled_Return_inv in Hful.
      exact (finnhub_symbols _ _ _ _ Hful).
    + destruct (net fmpRequest) as [|data].
      * intros _. exact (twelveData_symbols net SYMBOLS).
      * destruct (Array_map _ _); [done|].
        intros _. exact (twelveData_symbols net SYMBOLS).
Qed.

(** X11: the component renders exactly when every quote of the state has a
    string as its symbol; otherwise the search throws a [TypeError] out of
    the render, whatever the text of the search box and even while
    loading. *)
Theorem render_needs_string_symbols `{JsStrings} (s : AppState) :
  ((∃ v, render s = Return v)
   ↔ Forall (λ q, is_string (symbol q) = true) (stocks s))
  ∧ (∀ e, render s = Throw e → e = TypeError)
  ∧ (∀ qry b, (∃ v, render s = Return v)
              ↔ ∃ v, render (with_loading b (with_query qry s)) = Return v).
Proof.
  assert (Hiff : ∀ t, (∃ v, render t = Return v)
                      ↔ Forall (λ q, is_string (symbol q) = true) (stocks t)).
  { intros t. destruct (all_strings_dec (stocks t)) as [Hall|Hall].
    - split; [done|]. intros _.
      destruct (render_Return t _ (filtered_Return t Hall)) as (v & Hv & _).
      by exists v.
    - split; [|done]. intros [v Hv]. unfold render in Hv.
      by rewrite (filtered_Throw t Hall) in Hv. }
  split; [apply Hiff|]. split.
  - intros e. unfold render.
    destruct (all_strings_dec (stocks s)) as [Hall|Hall].
    + by rewrite (filtered_Return s Hall).
    + rewrite (filtered_Throw s Hall). by intros [= <-].
  - intros qry b. by rewrite !Hiff.
Qed.

(** X12: what is shown under the search box follows the loading flag and
    what the search kept: while loading, neither the table nor
    "No results."; otherwise the table, with one row for each quote the
    search kept, in their order, when it kept any, and "No results." when it
    kept none.  The sample chart is shown exactly when the table is and the
    first quote kept has a finite price, and plots that price less 3, less 1
    and as it is. *)
Theorem view_shows_one_body `{JsStrings} (s : AppState) (f : list Stock)
    (v : View) :
  filtered s = Return f →
  render s = Return v →
  (loading s = true ∧ loadingLine v = true ∧ tableRows v = None
     ∧ chartData v = None ∧ noResults v = false
   ∨ loading s = false ∧ f ≠ [] ∧ loadingLine v = false
     ∧ tableRows v = Some (renderRow <$> f) ∧ noResults v = false
   ∨ loading s = false ∧ f = [] ∧ loadingLine v = false
     ∧ tableRows v = None ∧ chartData v = None ∧ noResults v = true)
  ∧ (∀ c, chartData v = Some c
          ↔ loading s = false
            ∧ ∃ q f', f = q :: f' ∧ is_finite (price q) = true
                      ∧ c = [("P3", (price q - 3)%float);
                             ("P2", (price q - 1)%float);
                             ("Now", price q)]).
Proof.
  intros Hf. unfold render. rewrite Hf.
  intros [= <-]. simpl. destruct (loading s); simpl.
  - split; [by left|]. intros c. split; [done | by intros [? _]].
  - destruct f as [|q f]; simpl.
    + split; [by right; right|]. intros c.
      split; [done | by intros (_ & q & f' & ? & _)].
    + split; [by right; left|].
      intros c. unfold Number_isFinite.
      destruct (is_finite (price q)) eqn:E.
      * split.
        -- intros [= <-]. split; [done|]. by exists q, f.
        -- by intros (_ & q' & f' & [= <- <-] & _ & ->).
      * split; [done|]. intros (_ & q' & f' & [= <- <-] & ? & _). congruence.
Qed.

Lemma view_shows_one_body_witness :
  let s := with_query "goo"
             (@run sampleRuntime finnhub_up (Some "k") mounted).2 in
  let f := [mkStock (JStr "GOOGL") 110 10] in
  let v := mkView Finnhub None "goo" false None
             (Some [mkRow (JStr "GOOGL") (JStr "GOOGL") (Some 110%float)
                      (Some 10%float) Green600])
             (Some [("P3", 107%float); ("P2", 109%float); ("Now", 110%float)])
             false in
  @filtered sampleStrings s = Return f
  ∧ @render sampleStrings s = Return v
  ∧ (loading s = true ∧ loadingLine v = true ∧ tableRows v = None
       ∧ chartData v = None ∧ noResults v = false
     ∨ loading s = false ∧ f ≠ [] ∧ loadingLine v = false
       ∧ tableRows v = Some (renderRow <$> f) ∧ noResults v = false
     ∨ loading s = false ∧ f = [] ∧ loadingLine v = false
       ∧ tableRows v = None ∧ chartData v = None ∧ noResults v = true)
  ∧ (∀ c, chartData v = Some c
          ↔ loading s = false
            ∧ ∃ q f', f = q :: f' ∧ is_finite (price q) = true
                      ∧ c = [("P3", (price q - 3)%float);
                             ("P2", (price q - 1)%float);
                             ("Now", price q)]).
Proof.
  cbv zeta. split; [vm_compute; reflexivity|].
  split; [vm_compute; reflexivity|].
  apply (@view_shows_one_body sampleStrings); vm_compute; reflexivity.
Defined.

(** X13: after a [run] that ends with a source other than [FMP], the
    component renders for every text typed into the search box, with the
    loading line and the error line off and the source line showing that
    source. *)
Theorem render_after_run `{JsRuntime} `{JsStrings} (net : Request → HttpResult)
    (env : option string) (s s' : AppState) (qry : string) :
  run net env s = (Return (), s') →
  dataSource s' ≠ FMP →
  ∃ v, render (with_query qry s') = Return v
       ∧ loadingLine v = false
       ∧ errorLine v = None
       ∧ sourceLine v = dataSource s'.
Proof.
  rewrite run_resolve. intros [= <-]. simpl. intros Hsrc.
  apply resolve_symbols, symbols_are_strings in Hsrc.
  edestruct (render_Return (with_query qry
    (mkAppState (quotes (resolve net env)) false ""
       (advisory (resolve net env)) (query s) (source (resolve net env))
       (requests s ++ traffic (resolve net env))%list)))
    as (v & Hv & Hsource & _ & _ & Hload & Herr & _).
  { by apply filtered_Return. }
  exists v. by repeat split.
Qed.

Lemma render_after_run_witness :
  ∃ v, @render sampleStrings (with_query "zz"
         (@run sampleRuntime finnhub_blank (Some "k") mounted).2) = Return v
       ∧ loadingLine v = false
       ∧ errorLine v = None
       ∧ sourceLine v = Finnhub.
Proof.
  apply (@render_after_run sampleRuntime sampleStrings finnhub_blank
           (Some "k") mounted);
    [reflexivity | discriminate].
Defined.

(** X14: when the first adapter has thrown and FMP answers with an array
    from each element of which the adapter builds a quote, but one of which
    has no string as its [symbol], [run] returns as usual, with the source
    [FMP], and the state it leaves makes the component throw a [TypeError]
    while rendering, whatever is in the search box.  (The setters are taken
    to record the value only; rendering is a later step.) *)
Theorem fmp_symbol_breaks_render `{JsRuntime} `{JsStrings}
    (net : Request → HttpResult) (env : option string) (l : list JsVal)
    (s s1 : AppState) (e : Exn) :
  fetchWithFinnhub net env (started s) = (Throw e, s1) →
  net fmpRequest = Response (JArr l) →
  Forall (λ d, ∃ q, fmpQuote d = Return q) l →
  Exists (λ d, is_string (optChain d "symbol") = false) l →
  ∃ s', run net env s = (Return (), s')
        ∧ dataSource s' = FMP
        ∧ ∀ qry, render (with_query qry s') = Throw TypeError.
Proof.
  intros HA Hnet Hread Hbad. unfold run.
  rewrite run_with_eq, HA, fetchWithFMP_eq, Hnet.
  apply mapM_is_Return in Hread as [r Hr]. simpl. rewrite Hr.
  eexists. split; [reflexivity|].
  split; [reflexivity|]. intros qry. unfold render.
  rewrite filtered_Throw; [done|]. simpl.
  apply mapM_Return in Hr. clear -Hr Hbad.
  induction Hr as [|d q l r Hq Hr IH]; [by apply Exists_nil in Hbad|].
  intros [Hsym Hall]%Forall_cons.
  apply Exists_cons in Hbad as [Hd|Hl]; [|by apply IH].
  apply fmpQuote_symbol in Hq. congruence.
Qed.

Lemma fmp_symbol_breaks_render_witness :
  ∃ s', @run sampleRuntime fmp_numeric_symbol None mounted = (Return (), s')
        ∧ dataSource s' = FMP
        ∧ ∀ qry, @render sampleStrings (with_query qry s') = Throw TypeError.
Proof.
  eapply (@fmp_symbol_breaks_render sampleRuntime sampleStrings
            fmp_numeric_symbol None _ mounted).
  - reflexivity.
  - reflexivity.
  - repeat constructor. by eexists.
  - apply Exists_cons_hd. reflexivity.
Defined.

Lemma renderRow_priced_flat (q : Stock) :
  is_finite (price q) = true → change q = 0%float →
  renderRow q = mkRow (symbol q) (symbol q) (Some (price q)) (Some 0%float)
                  Green600.
Proof.
  intros Hp Hc. unfold renderRow, Number_isFinite. by rewrite Hp, Hc.
Qed.

Lemma matches_empty `{JsStrings} (q : Stock) :
  is_string (symbol q) = true → matches "" q = true.
Proof.
  intros Hq. apply matches_spec.
  destruct (symbol q) as [| | | |sy| |]; try done.
  exists sy, "", (toLowerCase sy). by rewrite toLowerCase_empty.
Qed.

(** X15: after a [run] that ends with the source [TwelveData], started with
    an empty search box, the component shows the TwelveData notice and a
    table with one row per configured symbol, in their order; every row has
    a price, a change of [0] and the green class, and the sample chart is
    shown. *)
Theorem twelveData_table `{JsRuntime} `{JsStrings} (net : Request → HttpResult)
    (env : option string) (s s' : AppState) :
  run net env s = (Return (), s') →
  dataSource s' = TwelveData →
  query s = "" →
  ∃ v rows,
    render s' = Return v
    ∧ noteLine v
      = Some "TwelveData demo in use; missing quotes filled with sample prices."
    ∧ tableRows v = Some rows
    ∧ symbolCell <$> rows = JStr <$> SYMBOLS
    ∧ Forall (λ r, (∃ p, priceCell r = Some p ∧ is_finite p = true)
                   ∧ changeCell r = Some 0%float
                   ∧ changeClass r = Green600) rows
    ∧ (∃ c, chartData v = Some c)
    ∧ noResults v = false.
Proof.
  rewrite run_resolve. intros [= <-]. simpl. intros Hsrc Hq.
  assert (Hres : quotes (resolve net env)
                 = map (twelveDataOutcome net) SYMBOLS
                 ∧ advisory (resolve net env)
                   = "TwelveData demo in use; missing quotes filled with sample prices.").
  { revert Hsrc. unfold resolve.
    destruct (if String.eqb _ _ then _ else _); [done|].
    destruct (net fmpRequest) as [|data]; [done|].
    by destruct (Array_map _ _). }
  destruct Hres as [Hquotes Hnote].
  pose proof (twelveData_finite net) as Hfin.
  pose proof (twelveData_change net SYMBOLS) as Hflat.
  pose proof (twelveData_symbols net SYMBOLS) as Hsym.
  rewrite <- Hquotes in Hfin, Hflat, Hsym.
  assert (Hlen : length (quotes (resolve net env)) = 4%nat)
    by (by rewrite Hquotes).
  unfold render.
  rewrite filtered_Return by (simpl; by eapply symbols_are_strings).
  simpl. rewrite Hq, Hnote, filter_all.
  2:{ intros q Hin. apply matches_empty.
      apply symbols_are_strings in Hsym. rewrite Forall_forall in Hsym.
      by apply Hsym. }
  rewrite Hlen. simpl. do 2 eexists. split; [reflexivity|]. simpl.
  split; [reflexivity|]. split; [reflexivity|].
  split; [|split; [|split]].
  - transitivity (symbol <$> quotes (resolve net env)); [|exact Hsym].
    clear. induction (quotes _) as [|q l IH]; [done|].
    simpl. f_equal. exact IH.
  - clear Hsym Hlen Hquotes.
    induction (quotes _) as [|q l IH]; [constructor|].
    apply Forall_cons in Hfin as [Hp Hfin].
    apply Forall_cons in Hflat as [Hc Hflat].
    simpl. constructor; [|by apply IH].
    rewrite (renderRow_priced_flat q Hp Hc). simpl. by eauto.
  - destruct (quotes _) as [|q l]; [done|].
    apply Forall_cons in Hfin as [Hp _].
    unfold Number_isFinite. rewrite Hp. by eexists.
  - reflexivity.
Qed.

Lemma twelveData_table_witness :
  ∃ v rows,
    @render sampleStrings
      (@run sampleRuntime twelveData_msft_down None mounted).2 = Return v
    ∧ noteLine v
      = Some "TwelveData demo in use; missing quotes filled with sample prices."
    ∧ tableRows v = Some rows
    ∧ symbolCell <$> rows = JStr <$> SYMBOLS
    ∧ Forall (λ r, (∃ p, priceCell r = Some p ∧ is_finite p = true)
                   ∧ changeCell r = Some 0%float
                   ∧ changeClass r = Green600) rows
    ∧ (∃ c, chartData v = Some c)
    ∧ noResults v = false.
Proof.
  apply (@twelveData_table sampleRuntime sampleStrings twelveData_msft_down
           None mounted);
    reflexivity.
Defined.
